(** * routingjs: the request client ([src/Client.ts])

    A shallow embedding of the [Client] class: its constructor (header
    merge, transport options, retry configuration) and its [request]
    method (URL construction, GET/POST routing, dry run, error wrapping).

    The platform and the libraries the class is written against (the
    WHATWG [URL] parser and serializer, [JSON.stringify], axios and
    axios-retry, the [options] module) are not part of the file; they are
    the [Variable]s and [Context] of section [ClientModel]. Module
    [Sample] instantiates them for the closed examples. *)

From Stdlib Require Import String Ascii ZArith List.
From stdpp Require Import base option list gmap strings pretty.
Import ListNotations.

Local Open Scope string_scope.
Local Open Scope Z_scope.

(** ** JavaScript strings *)

(** The line feed of a template literal that spans several lines. *)
Definition nl : string := String "010"%char EmptyString.

(** [n] spaces of indentation inside a template literal. *)
Fixpoint spaces (n : nat) : string :=
  match n with
  | O => EmptyString
  | S m => String " "%char (spaces m)
  end.

(** [s.includes(x)]: [x] occurs in [s]. *)
Definition includes (s x : string) : Prop :=
  exists pre suf : string, s = pre +:+ x +:+ suf.

(** What a template literal prints for [undefined]. *)
Definition undefined_text : string := "undefined".

(** [`${x}`] for an [x] that may be [undefined]. *)
Definition interpolate {A : Type} (show : A -> string) (x : option A) : string :=
  match x with
  | Some a => show a
  | None => undefined_text
  end.

(** [JSON.stringify] at the types the client serializes. *)
Class JSONStringify (A : Type) := JSON_stringify : A -> string.

(** [JSON.stringify] of a platform object, which may refer back to itself:
    [None] when the call throws its [TypeError] (a circular structure),
    as it does on the request object of Node's http module. *)
Class JSONStringifyOrThrow (A : Type) :=
  JSON_stringify_or_throw : A -> option string.

(** ** The URL object

    [new URL(s)] parses [s]; the client only ever touches the query of the
    parsed URL, through [searchParams.append].  A URL is therefore kept as
    what the parser made of everything but the query, plus the list of
    name-value pairs of the query (a list: order and repetitions count). *)
Record URL : Type := mkURL {
  url_location : string;
  searchParams : list (string * string);
  url_fragment : string
}.

(** [urlObj.searchParams.append(k, v)] adds one pair at the end. *)
Definition searchParams_append (k v : string) (u : URL) : URL :=
  {| url_location := url_location u;
     searchParams := searchParams u ++ [(k, v)];
     url_fragment := url_fragment u |}.

(** [for (const [k, v] of Object.entries(auth)) urlObj.searchParams.append(k, v)] *)
Definition append_entries (entries : list (string * string)) (u : URL) : URL :=
  fold_left (fun acc kv => searchParams_append (fst kv) (snd kv) acc) entries u.

(** ** Headers and transport options *)

(** A header value is [string | number]. *)
Inductive HeaderValue : Type :=
| HString (s : string)
| HNumber (n : Z).

(** [proxy?: false | AxiosProxyConfig] *)
Inductive ProxySetting (ProxyConfig : Type) : Type :=
| ProxyFalse
| ProxyOn (cfg : ProxyConfig).
Arguments ProxyFalse {ProxyConfig}.
Arguments ProxyOn {ProxyConfig} cfg.

(** A key of an object: absent, or present with a value, which may be
    [undefined] (as in [{ headers: undefined }]). *)
Inductive Key (A : Type) : Type :=
| Absent
| Present (value : option A).
Arguments Absent {A}.
Arguments Present {A} value.

(** Reading the property [o.k]: [undefined] for an absent key as for a
    key that holds [undefined]. *)
Definition read {A : Type} (k : Key A) : option A :=
  match k with
  | Absent => None
  | Present value => value
  end.

(** The keys of [AxiosRequestConfig] that the constructor writes or
    reads. *)
Record AxiosRequestConfig (ProxyConfig : Type) : Type := mkConfig {
  key_headers : Key (gmap string HeaderValue);
  key_timeout : Key Z;
  key_proxy : Key (ProxySetting ProxyConfig)
}.
Arguments mkConfig {ProxyConfig}.
Arguments key_headers {ProxyConfig}.
Arguments key_timeout {ProxyConfig}.
Arguments key_proxy {ProxyConfig}.

(** [config.headers], [config.timeout], [config.proxy] *)
Definition cfg_headers {P : Type} (config : AxiosRequestConfig P)
  : option (gmap string HeaderValue) := read (key_headers config).

Definition cfg_timeout {P : Type} (config : AxiosRequestConfig P)
  : option Z := read (key_timeout config).

Definition cfg_proxy {P : Type} (config : AxiosRequestConfig P)
  : option (ProxySetting P) := read (key_proxy config).

(** Object spread at one key: a key the later object has is copied with
    whatever it holds, [undefined] too; a key it lacks keeps the earlier
    one. *)
Definition override {A : Type} (later earlier : Key A) : Key A :=
  match later with
  | Present value => Present value
  | Absent => earlier
  end.

(** [{ ...base, ...over }] on transport options; spreading [undefined]
    adds nothing. *)
Definition spread_config {P : Type}
    (base : AxiosRequestConfig P) (over : option (AxiosRequestConfig P))
  : AxiosRequestConfig P :=
  match over with
  | None => base
  | Some o =>
      {| key_headers := override (key_headers o) (key_headers base);
         key_timeout := override (key_timeout o) (key_timeout base);
         key_proxy := override (key_proxy o) (key_proxy base) |}
  end.

(** The [options] module: the defaults of the constructor. *)
Record Options : Type := mkOptions {
  defaultUserAgent : string;
  defaultTimeout : Z;
  defaultMaxRetries : Z;
  defaultHeaders : gmap string HeaderValue
}.

(** ** Transport errors and responses *)

Section Transport.
Variables Payload ClientRequest : Type.

(** [AxiosResponse]: the fields the client reads. *)
Record AxiosResponse : Type := mkResponse {
  status : Z;
  statusText : string;
  data : Payload
}.

(** [AxiosError]: [response] and [request] are optional. *)
Record AxiosError : Type := mkAxiosError {
  name : string;
  message : string;
  response : option AxiosResponse;
  error_request : option ClientRequest
}.

(** [error.response?.status] *)
Definition response_status (error : AxiosError) : option Z :=
  match response error with
  | Some r => Some (status r)
  | None => None
  end.

(** [error.response?.statusText] *)
Definition response_statusText (error : AxiosError) : option string :=
  match response error with
  | Some r => Some (statusText r)
  | None => None
  end.
End Transport.

Arguments mkResponse {Payload}.
Arguments status {Payload}.
Arguments statusText {Payload}.
Arguments data {Payload}.
Arguments mkAxiosError {Payload ClientRequest}.
Arguments name {Payload ClientRequest}.
Arguments message {Payload ClientRequest}.
Arguments response {Payload ClientRequest}.
Arguments error_request {Payload ClientRequest}.
Arguments response_status {Payload ClientRequest}.
Arguments response_statusText {Payload ClientRequest}.

(** What [request] rejects with: the two error classes of the [error]
    module, each with its message, the [TypeError] of [new URL], or the
    [TypeError] of a [JSON.stringify] that throws inside a handler. *)
Inductive RequestError : Type :=
| RoutingJSAPIError (msg : string)
| RoutingJSClientError (msg : string)
| URLTypeError (input : string)
| JSONTypeError.

Definition isAPIError (e : RequestError) : bool :=
  match e with RoutingJSAPIError _ => true | _ => false end.

Definition isClientError (e : RequestError) : bool :=
  match e with RoutingJSClientError _ => true | _ => false end.

(** ** Asynchronous computations over the client

    A [request] is an [async] method of an object: it reads [this], may
    throw, and may suspend on one call of the transport.  [Async] is the
    tree of such a computation: [Settled] when the promise settles with
    no further transport call, [Await c k] when it suspends on the call
    [c] and resumes with [k] applied to the transport's answer.  [Task]
    adds the client state that is threaded through and the error a
    promise rejects with. *)
Section AsyncTasks.
Context {Call Answer : Type}.

Inductive Async (A : Type) : Type :=
| Settled (a : A)
| Await (c : Call) (k : Answer -> Async A).
Arguments Settled {A} a.
Arguments Await {A} c k.

Fixpoint async_bind {A B : Type} (m : Async A) (f : A -> Async B) : Async B :=
  match m with
  | Settled a => f a
  | Await c k => Await c (fun ans => async_bind (k ans) f)
  end.

(** The calls made, in order, and the settled value, when the transport
    answers as [transport] does. *)
Fixpoint run {A : Type} (transport : Call -> Answer) (m : Async A)
  : list Call * A :=
  match m with
  | Settled a => ([], a)
  | Await c k =>
      let r := run transport (k (transport c)) in (c :: fst r, snd r)
  end.

(** A task over a state [S] rejecting with [E] or resolving with [A]. *)
Definition Task (S E A : Type) : Type := S -> Async ((E + A) * S).

Definition resolve {S E A : Type} (a : A) : Task S E A :=
  fun s => Settled (inr a, s).

Definition reject {S E A : Type} (e : E) : Task S E A :=
  fun s => Settled (inl e, s).

(** [this]: the receiver, read and left as it is. *)
Definition this {S E : Type} : Task S E S :=
  fun s => Settled (inr s, s).

(** [await]/[.then] with a continuation that is itself a task. *)
Definition bind {S E A B : Type} (m : Task S E A) (f : A -> Task S E B)
  : Task S E B :=
  fun s => async_bind (m s) (fun r =>
    match fst r with
    | inl e => Settled (inl e, snd r)
    | inr a => f a (snd r)
    end).

(** [p.then(f)] for a callback that returns a plain value. *)
Definition then_ {S E A B : Type} (m : Task S E A) (f : A -> B) : Task S E B :=
  bind m (fun a => resolve (f a)).

(** [p.catch(h)]; the handler may rethrow an error of another type. *)
Definition catch {S E E' A : Type} (m : Task S E A) (h : E -> Task S E' A)
  : Task S E' A :=
  fun s => async_bind (m s) (fun r =>
    match fst r with
    | inl e => h e (snd r)
    | inr a => Settled (inr a, snd r)
    end).

(** Suspend on a transport call whose answer is a rejection or a value. *)
Definition await {S E A : Type} (c : Call) (decode : Answer -> E + A)
  : Task S E A :=
  fun s => Await c (fun ans => Settled (decode ans, s)).
End AsyncTasks.

Arguments Async : clear implicits.
Arguments Task : clear implicits.

Declare Scope task_scope.
Delimit Scope task_scope with task.
Notation "x <- m ;; k" := (bind m (fun x => k))
  (at level 100, m at next level, right associativity) : task_scope.


(** ** The client *)

Section ClientModel.

(** Engine-specific shapes, opaque to the client: the GET and POST
    parameter objects, the payload of a response ([res.data]), the
    outgoing request object of an error ([error.request]) and the proxy
    settings. *)
Variables GetParams PostParams Payload ClientRequest ProxyConfig : Type.

Context {stringify_get : JSONStringify GetParams}.
Context {stringify_post : JSONStringify PostParams}.
Context {stringify_request : JSONStringifyOrThrow ClientRequest}.
Context {stringify_error : JSONStringify (AxiosError Payload ClientRequest)}.

(** [new URL(s)]: [None] when the parser throws its [TypeError]. *)
Variable URL_parse : string -> option URL.

(** [urlObj.toString()] *)
Variable URL_toString : URL -> string.

(** [import options from "./options"] *)
Variable options : Options.

(** axios-retry: [isNetworkOrIdempotentRequestError] and
    [axiosRetry.exponentialDelay] (retry number, error, to milliseconds). *)
Variable isNetworkOrIdempotentRequestError :
  AxiosError Payload ClientRequest -> bool.
Variable exponentialDelay : Z -> AxiosError Payload ClientRequest -> Z.

Abbreviation Error := (AxiosError Payload ClientRequest).
Abbreviation Response := (AxiosResponse Payload).
Abbreviation Config := (AxiosRequestConfig ProxyConfig).
Abbreviation Headers := (gmap string HeaderValue).

(** [IAxiosRetryConfig]; [retryCondition: undefined] is [None].  [onRetry]
    is given by the line it writes to the console. *)
Record IAxiosRetryConfig : Type := mkRetryConfig {
  retries : Z;
  retryCondition : option (Error -> bool);
  retryDelay : Z -> Error -> Z;
  onRetry : Z -> Error -> string
}.

(** The transport instance: the options it was created with and the
    retry configuration installed on it. *)
Record Axios : Type := mkAxios {
  defaults : Config;
  retry_installed : option IAxiosRetryConfig
}.

(** [axios.create(config)] *)
Definition axios_create (config : Config) : Axios :=
  {| defaults := config; retry_installed := None |}.

(** [axiosRetry(instance, retryOpts)] *)
Definition axiosRetry (instance : Axios) (retryOpts : IAxiosRetryConfig) : Axios :=
  {| defaults := defaults instance; retry_installed := Some retryOpts |}.

(** The fields of a [Client] instance. *)
Record Client : Type := mkClient {
  baseURL : string;
  userAgent : string;
  timeout : Z;
  retryOverQueryLimit : bool;
  headers : Headers;
  maxRetries : Z;
  additionalAxiosOpts : option Config;
  axiosInstance : Axios;
  axiosOptions : Config;
  proxy : option (ProxySetting ProxyConfig)
}.

(** A parameter with a default value: the default stands in for
    [undefined]. *)
Definition default_to {A : Type} (d : A) (x : option A) : A :=
  match x with
  | Some a => a
  | None => d
  end.

(** [{ ...options.defaultHeaders, "User-Agent": userAgent, ...this.headers }]:
    a later key replaces an earlier one ([∪] on maps keeps the left). *)
Definition merge_headers (userAgent0 : string) (headers0 : option Headers)
  : Headers :=
  default_to ∅ headers0
    ∪ <["User-Agent" := HString userAgent0]> (defaultHeaders options).

(** The retry condition installed when [retryOverQueryLimit] is set:
    [isNetworkOrIdempotentRequestError(error) || error.response?.status == 429] *)
Definition retry_on_429 (error : Error) : bool :=
  isNetworkOrIdempotentRequestError error
  || bool_decide (response_status error = Some 429).

(** The line [onRetry] logs. *)
Definition retry_log (number : Z) (error : Error) : string :=
  "Request failed with status code "
  +:+ interpolate pretty (response_status error)
  +:+ ": " +:+ interpolate id (response_statusText error)
  +:+ ". Retry number " +:+ pretty number +:+ ".".

(** axios-retry is not part of the source.  Its interceptor spreads the
    options [axiosRetry] was given over the library's default options, so
    that every key the constructor writes in [retryOpts] replaces the
    default under that key, a [retryCondition: undefined] as well; when a
    request fails with retries left, it calls the resulting
    [retryCondition] on the error.  [None] is the [TypeError] of calling
    [undefined]. *)
Definition retryCondition_called (cfg : IAxiosRetryConfig) (error : Error)
  : option bool :=
  match retryCondition cfg with
  | Some condition => Some (condition error)
  | None => None
  end.

(** [retryOpts] of the constructor. *)
Definition retryOpts (maxRetries0 : Z) (retryOverQueryLimit0 : bool)
  : IAxiosRetryConfig :=
  {| retries := maxRetries0;
     retryCondition :=
       if retryOverQueryLimit0 then Some retry_on_429 else None;
     retryDelay := exponentialDelay;
     onRetry := retry_log |}.

(** [new Client(baseURL, userAgent, timeout, retryOverQueryLimit, headers,
    maxRetries, additionalAxiosOpts)]; [None] is an argument left out. *)
Definition new_Client (baseURL0 : string) (userAgent0 : option string)
    (timeout0 : option Z) (retryOverQueryLimit0 : option bool)
    (headers0 : option Headers) (maxRetries0 : option Z)
    (additionalAxiosOpts0 : option Config) : Client :=
  let userAgent1 := default_to (defaultUserAgent options) userAgent0 in
  let timeout1 := default_to (defaultTimeout options) timeout0 in
  let retryOverQueryLimit1 := default_to false retryOverQueryLimit0 in
  let maxRetries1 := default_to (defaultMaxRetries options) maxRetries0 in
  let headers1 := merge_headers userAgent1 headers0 in
  let axiosOptions1 :=
    spread_config
      {| key_headers := Present (Some headers1);
         key_timeout := Present (Some timeout1);
         key_proxy := Absent |}
      additionalAxiosOpts0 in
  let axiosInstance1 := axios_create axiosOptions1 in
  let proxy1 :=
    match additionalAxiosOpts0 with
    | Some o => cfg_proxy o
    | None => None
    end in
  {| baseURL := baseURL0;
     userAgent := userAgent1;
     timeout := timeout1;
     retryOverQueryLimit := retryOverQueryLimit1;
     headers := headers1;
     maxRetries := maxRetries1;
     additionalAxiosOpts := additionalAxiosOpts0;
     axiosInstance :=
       axiosRetry axiosInstance1 (retryOpts maxRetries1 retryOverQueryLimit1);
     axiosOptions := axiosOptions1;
     proxy := proxy1 |}.


(** ** [request] *)

(** [requestArgs].  [auth] is kept as its [Object.entries], in key order. *)
Record requestArgs : Type := mkArgs {
  endpoint : string;
  getParams : option GetParams;
  postParams : option PostParams;
  auth : option (list (string * string));
  dryRun : option bool
}.

(** The two calls [request] makes on the transport instance. *)
Inductive AxiosCall : Type :=
| axios_post (instance : Axios) (url : string) (body : PostParams)
| axios_get (instance : Axios) (url : string) (params : option GetParams).

(** What the promise of [request] resolves with: the payload of the
    response, or the description of a dry run. *)
Inductive Resolved : Type :=
| ResponseData (d : Payload)
| RequestInfo (s : string).

(** [dryRun === true] *)
Definition strictly_true (b : option bool) : bool :=
  match b with
  | Some true => true
  | _ => false
  end.

(** The template literal [requestInfo], with the method it names. *)
Definition requestInfo (url method parameters : string) : string :=
  nl +:+ spaces 16 +:+ "URL: " +:+ url
  +:+ nl +:+ spaces 16 +:+ "Method: " +:+ method
  +:+ nl +:+ spaces 16 +:+ "Parameters: " +:+ parameters
  +:+ nl +:+ spaces 12.

(** The handler of [.catch] on the POST path. *)
Definition post_failure (error : Error) : RequestError :=
  RoutingJSAPIError
    ("Request failed with status "
     +:+ interpolate pretty (response_status error)
     +:+ ": " +:+ JSON_stringify error).

(** The handler of [.catch] on the GET path.  The message of the second
    case is built before the error is, so a [JSON.stringify] that throws
    leaves the handler with its own [TypeError]. *)
Definition get_failure (error : Error) : RequestError :=
  match response error with
  | Some r =>
      RoutingJSAPIError
        ("Request failed with status " +:+ pretty (status r)
         +:+ ": " +:+ message error)
  | None =>
      match error_request error with
      | Some req =>
          match JSON_stringify_or_throw req with
          | Some text =>
              RoutingJSAPIError ("Request failed with request " +:+ text)
          | None => JSONTypeError
          end
      | None =>
          RoutingJSClientError
            ("Request failed with error " +:+ name error +:+ "."
             +:+ nl +:+ spaces 29 +:+ "Message: " +:+ message error +:+ " ")
      end
  end.

(** The URL object after the [auth] loop of the POST branch. *)
Definition with_auth (auth0 : option (list (string * string))) (urlObj : URL)
  : URL :=
  match auth0 with
  | Some entries => append_entries entries urlObj
  | None => urlObj
  end.

Local Open Scope task_scope.

(** [async request(requestArgs)] *)
Definition request (args : requestArgs)
  : Task AxiosCall (Error + Response) Client RequestError Resolved :=
  self <- this ;;
  let target := baseURL self +:+ endpoint args in
  match URL_parse target with
  | None => reject (URLTypeError target)
  | Some urlObj =>
      match postParams args with
      | Some body =>
          let urlObj := with_auth (auth args) urlObj in
          if strictly_true (dryRun args) then
            resolve (RequestInfo
              (requestInfo (URL_toString urlObj) "POST" (JSON_stringify body)))
          else
            catch
              (then_
                 (await (axios_post (axiosInstance self)
                           (URL_toString urlObj) body) id)
                 (fun res => ResponseData (data res)))
              (fun error => reject (post_failure error))
      | None =>
          if strictly_true (dryRun args) then
            resolve (RequestInfo
              (requestInfo (URL_toString urlObj) "GET"
                 (interpolate JSON_stringify (getParams args))))
          else
            then_
              (catch
                 (await (axios_get (axiosInstance self)
                           (URL_toString urlObj) (getParams args)) id)
                 (fun error => reject (get_failure error)))
              (fun res => ResponseData (data res))
      end
  end.

(** The promise of [client.request(args)] once the transport has
    answered: the calls made, what the promise settled with, and the
    client afterwards. *)
Definition settle (transport : AxiosCall -> Error + Response)
    (client : Client) (args : requestArgs)
  : list AxiosCall * ((RequestError + Resolved) * Client) :=
  run transport (request args client).

Definition calls_of (transport : AxiosCall -> Error + Response)
    (client : Client) (args : requestArgs) : list AxiosCall :=
  fst (settle transport client args).

Definition outcome_of (transport : AxiosCall -> Error + Response)
    (client : Client) (args : requestArgs) : RequestError + Resolved :=
  fst (snd (settle transport client args)).

Definition client_after (transport : AxiosCall -> Error + Response)
    (client : Client) (args : requestArgs) : Client :=
  snd (snd (settle transport client args)).

End ClientModel.

Arguments mkRetryConfig {Payload ClientRequest}.
Arguments retries {Payload ClientRequest}.
Arguments retryCondition {Payload ClientRequest}.
Arguments retryDelay {Payload ClientRequest}.
Arguments onRetry {Payload ClientRequest}.
Arguments mkAxios {Payload ClientRequest ProxyConfig}.
Arguments defaults {Payload ClientRequest ProxyConfig}.
Arguments retry_installed {Payload ClientRequest ProxyConfig}.
Arguments axios_create {Payload ClientRequest ProxyConfig}.
Arguments axiosRetry {Payload ClientRequest ProxyConfig}.
Arguments mkClient {Payload ClientRequest ProxyConfig}.
Arguments baseURL {Payload ClientRequest ProxyConfig}.
Arguments userAgent {Payload ClientRequest ProxyConfig}.
Arguments timeout {Payload ClientRequest ProxyConfig}.
Arguments retryOverQueryLimit {Payload ClientRequest ProxyConfig}.
Arguments headers {Payload ClientRequest ProxyConfig}.
Arguments maxRetries {Payload ClientRequest ProxyConfig}.
Arguments additionalAxiosOpts {Payload ClientRequest ProxyConfig}.
Arguments axiosInstance {Payload ClientRequest ProxyConfig}.
Arguments axiosOptions {Payload ClientRequest ProxyConfig}.
Arguments proxy {Payload ClientRequest ProxyConfig}.
Arguments retryCondition_called {Payload ClientRequest}.
Arguments retry_on_429 {Payload ClientRequest}.
Arguments retry_log {Payload ClientRequest}.
Arguments retryOpts {Payload ClientRequest}.
Arguments new_Client {Payload ClientRequest ProxyConfig}.
Arguments mkArgs {GetParams PostParams}.
Arguments endpoint {GetParams PostParams}.
Arguments getParams {GetParams PostParams}.
Arguments postParams {GetParams PostParams}.
Arguments auth {GetParams PostParams}.
Arguments dryRun {GetParams PostParams}.
Arguments axios_post {GetParams PostParams Payload ClientRequest ProxyConfig}.
Arguments axios_get {GetParams PostParams Payload ClientRequest ProxyConfig}.
Arguments ResponseData {Payload}.
Arguments RequestInfo {Payload}.
Arguments post_failure {Payload ClientRequest stringify_error}.
Arguments get_failure {Payload ClientRequest stringify_request}.
Arguments request {GetParams PostParams Payload ClientRequest ProxyConfig
  stringify_get stringify_post stringify_request stringify_error}.
Arguments settle {GetParams PostParams Payload ClientRequest ProxyConfig
  stringify_get stringify_post stringify_request stringify_error}.
Arguments calls_of {GetParams PostParams Payload ClientRequest ProxyConfig
  stringify_get stringify_post stringify_request stringify_error}.
Arguments outcome_of {GetParams PostParams Payload ClientRequest ProxyConfig
  stringify_get stringify_post stringify_request stringify_error}.
Arguments client_after {GetParams PostParams Payload ClientRequest ProxyConfig
  stringify_get stringify_post stringify_request stringify_error}.

(** The HTTP method of a transport call and the URL it goes to. *)
Inductive Method : Type := GET | POST.

Definition call_method {G P D R X : Type} (c : AxiosCall G P D R X) : Method :=
  match c with
  | axios_post _ _ _ => POST
  | axios_get _ _ _ => GET
  end.

Definition call_url {G P D R X : Type} (c : AxiosCall G P D R X) : string :=
  match c with
  | axios_post _ url _ => url
  | axios_get _ url _ => url
  end.

(** Whether an optional value is there. *)
Definition is_Some_b {A : Type} (x : option A) : bool :=
  match x with
  | Some _ => true
  | None => false
  end.

(** How a transport answer settles the promise of the POST branch:
    [.then((res) => res.data).catch(...)]. *)
Definition post_settles {D R : Type} {stringify_error : JSONStringify (AxiosError D R)}
    (answer : AxiosError D R + AxiosResponse D) : RequestError + Resolved D :=
  match answer with
  | inl error => inl (post_failure error)
  | inr res => inr (ResponseData (data res))
  end.

(** How a transport answer settles the promise of the GET branch:
    [.catch(...).then((res) => res.data)]. *)
Definition get_settles {D R : Type} {stringify_request : JSONStringifyOrThrow R}
    (answer : AxiosError D R + AxiosResponse D) : RequestError + Resolved D :=
  match answer with
  | inl error => inl (get_failure error)
  | inr res => inr (ResponseData (data res))
  end.

(** ** A sample platform

    One instance of the parameters of [ClientModel], for the closed
    examples: parameter objects with number-valued keys, URLs that need no
    normalisation and no escaping. *)
Module Sample.

(** The double quote of a JSON string. *)
Definition dquote : string := String "034"%char EmptyString.

Definition quoted (s : string) : string := dquote +:+ s +:+ dquote.

Definition join (sep : string) (parts : list string) : string :=
  match parts with
  | [] => EmptyString
  | p :: ps => fold_left (fun acc q => acc +:+ sep +:+ q) ps p
  end.

(** Parameter objects: keys with integer values, in key order. *)
Definition Params : Type := list (string * Z).

Definition stringify_params (p : Params) : string :=
  "{" +:+ join "," (map (fun kv => quoted (fst kv) +:+ ":" +:+ pretty (snd kv)) p)
  +:+ "}".

#[global] Instance params_json : JSONStringify Params := stringify_params.

(** The outgoing request object, by the path it was sent to: a flat
    object, or one that refers back to itself, as the request object of
    Node does through its socket. *)
Inductive Req : Type :=
| FlatRequest (path : string)
| CircularRequest (path : string).

#[global] Instance req_json : JSONStringifyOrThrow Req :=
  fun req =>
    match req with
    | FlatRequest path =>
        Some ("{" +:+ quoted "path" +:+ ":" +:+ quoted path +:+ "}")
    | CircularRequest _ => None
    end.

(** Payloads are kept as text. *)
Definition Body : Type := string.

#[global] Instance error_json : JSONStringify (AxiosError Body Req) :=
  fun e =>
    "{" +:+ quoted "message" +:+ ":" +:+ quoted (message e) +:+ ","
    +:+ quoted "name" +:+ ":" +:+ quoted (name e) +:+ "}".

Definition has_char (c : ascii) (s : string) : bool :=
  existsb (fun d => bool_decide (d = c)) (list_ascii_of_string s).

(** Accepts an absolute http(s) URL without query, fragment or blank. *)
Definition parse (s : string) : option URL :=
  if (String.prefix "https://" s || String.prefix "http://" s)
     && negb (has_char "?" s) && negb (has_char "#" s) && negb (has_char " " s)
  then Some (mkURL s [] EmptyString)
  else None.

Definition serialize (u : URL) : string :=
  url_location u
  +:+ match searchParams u with
      | [] => EmptyString
      | q => "?" +:+ join "&" (map (fun kv => fst kv +:+ "=" +:+ snd kv) q)
      end
  +:+ url_fragment u.

Definition opts : Options :=
  {| defaultUserAgent := "routing-js";
     defaultTimeout := 30000;
     defaultMaxRetries := 5;
     defaultHeaders := {[ "Content-Type" := HString "application/json" ]} |}.

(** Retry when there was no response at all. *)
Definition network_error (e : AxiosError Body Req) : bool :=
  match response e with
  | None => true
  | Some _ => false
  end.

Definition backoff (n : Z) (_ : AxiosError Body Req) : Z := 100 * 2 ^ n.

Definition client : Client Body Req unit :=
  new_Client opts network_error backoff
    "https://api.mapbox.com" None None None None None None.

Definition route : Params := [("costing", 1)].

Definition token : list (string * string) := [("access_token", "tok")].

(** A transport that answers every call with status 200. *)
Definition up (_ : AxiosCall Params Params Body Req unit)
  : AxiosError Body Req + AxiosResponse Body :=
  inr (mkResponse 200 "OK" "routes").

(** A transport that fails every call, with the given error. *)
Definition down (e : AxiosError Body Req)
    (_ : AxiosCall Params Params Body Req unit)
  : AxiosError Body Req + AxiosResponse Body :=
  inl e.

(** Arguments of [request] on the sample client. *)
Definition valhalla_dry : requestArgs Params Params :=
  mkArgs "/valhalla/v1/route" None (Some route) (Some token) (Some true).

Definition valhalla_live : requestArgs Params Params :=
  mkArgs "/valhalla/v1/route" None (Some route) (Some token) None.

Definition empty_post : requestArgs Params Params :=
  mkArgs "/valhalla/v1/route" None (Some []) None None.

Definition bare_get : requestArgs Params Params :=
  mkArgs "/route/v1/driving" None None None None.

Definition get_with_auth : requestArgs Params Params :=
  mkArgs "/route/v1/driving" None None (Some token) None.

Definition get_with_auth_dry : requestArgs Params Params :=
  mkArgs "/route/v1/driving" None None (Some token) (Some true).

(** The URL objects the two endpoints parse to. *)
Definition valhalla_url : URL :=
  mkURL "https://api.mapbox.com/valhalla/v1/route" [] EmptyString.

Definition driving_url : URL :=
  mkURL "https://api.mapbox.com/route/v1/driving" [] EmptyString.

(** A client whose base URL has no scheme: no target of it parses. *)
Definition schemeless : Client Body Req unit :=
  new_Client opts network_error backoff
    "api.mapbox.com" None None None None None None.

(** Failures of the transport: a 429 answer, a request that got no
    reply, and an error raised while the request was being set up. *)
Definition too_many : AxiosError Body Req :=
  mkAxiosError "AxiosError" "Request failed with status code 429"
    (Some (mkResponse 429 "Too Many Requests" "slow down"))
    (Some (FlatRequest "/route/v1/driving")).

Definition no_reply : AxiosError Body Req :=
  mkAxiosError "AxiosError" "timeout of 30000ms exceeded"
    None (Some (FlatRequest "/route/v1/driving")).

Definition setup_failed : AxiosError Body Req :=
  mkAxiosError "TypeError" "invalid header value" None None.

(** A request that got no reply, as Node reports it. *)
Definition no_reply_on_node : AxiosError Body Req :=
  mkAxiosError "AxiosError" "timeout of 30000ms exceeded"
    None (Some (CircularRequest "/route/v1/driving")).

(** A failed request with a status the 429 rule does not cover. *)
Definition unavailable : AxiosError Body Req :=
  mkAxiosError "AxiosError" "Request failed with status code 503"
    (Some (mkResponse 503 "Service Unavailable" "down"))
    (Some (FlatRequest "/route/v1/driving")).

(** Dry runs on the GET branch, with and without [getParams]. *)
Definition get_dry_with_params : requestArgs Params Params :=
  mkArgs "/route/v1/driving" (Some [("steps", 1)]) None None (Some true).

Definition get_dry_bare : requestArgs Params Params :=
  mkArgs "/route/v1/driving" None None None (Some true).

End Sample.

(** The transport instance a call is made on. *)
Definition call_instance {G P D R X : Type} (c : AxiosCall G P D R X)
  : Axios D R X :=
  match c with
  | axios_post instance _ _ => instance
  | axios_get instance _ _ => instance
  end.

(** The call a request makes once its target has parsed to [u] and it is
    not a dry run: [axiosInstance.post(url, postParams)] with the [auth]
    pairs in the URL, or [axiosInstance.get(url, { params: getParams })]. *)
Definition live_call {G P D R X : Type} (URL_toString : URL -> string)
    (client : Client D R X) (args : requestArgs G P) (u : URL)
  : AxiosCall G P D R X :=
  match postParams args with
  | Some body =>
      axios_post (axiosInstance client)
        (URL_toString (with_auth (auth args) u)) body
  | None =>
      axios_get (axiosInstance client) (URL_toString u) (getParams args)
  end.

(** Further inputs on the sample platform. *)
Module SampleMore.

(** Transport options that set headers, timeout and proxy of their own. *)
Definition overrides : AxiosRequestConfig unit :=
  mkConfig (Present (Some {[ "X-Api-Key" := HString "k" ]}))
    (Present (Some 100)) (Present (Some ProxyFalse)).

(** Transport options that only switch the proxy off. *)
Definition proxy_only : AxiosRequestConfig unit :=
  mkConfig Absent Absent (Present (Some ProxyFalse)).

Definition custom : gmap string HeaderValue :=
  {[ "Accept" := HString "application/json" ]}.

Definition overridden : Client Sample.Body Sample.Req unit :=
  new_Client Sample.opts Sample.network_error Sample.backoff
    "https://api.mapbox.com" (Some "agent/1") (Some 5000) (Some true)
    (Some custom) (Some 2) (Some overrides).

Definition proxied : Client Sample.Body Sample.Req unit :=
  new_Client Sample.opts Sample.network_error Sample.backoff
    "https://api.mapbox.com" (Some "agent/1") (Some 5000) (Some true)
    (Some custom) (Some 2) (Some proxy_only).

(** Transport options that write [headers] and [timeout] as [undefined]. *)
Definition undefined_keys : AxiosRequestConfig unit :=
  mkConfig (Present None) (Present None) Absent.

Definition wiped : Client Sample.Body Sample.Req unit :=
  new_Client Sample.opts Sample.network_error Sample.backoff
    "https://api.mapbox.com" (Some "agent/1") (Some 5000) (Some true)
    (Some custom) (Some 2) (Some undefined_keys).

(** Both kinds of parameters at once. *)
Definition both_params : requestArgs Sample.Params Sample.Params :=
  mkArgs "/valhalla/v1/route" (Some [("steps", 1)]) (Some Sample.route)
    None None.

End SampleMore.

(** * Properties *)

(** ** Strings *)

Lemma append_assoc (a b c : string) : (a +:+ b) +:+ c = a +:+ (b +:+ c).
Proof.
  induction a as [|ch a IH]; [reflexivity|].
  change (String ch ((a +:+ b) +:+ c) = String ch (a +:+ (b +:+ c))).
  now rewrite IH.
Qed.

Lemma includes_here (x suf : string) : includes (x +:+ suf) x.
Proof. exists EmptyString, suf. reflexivity. Qed.

Lemma includes_later (pre s x : string) : includes s x -> includes (pre +:+ s) x.
Proof.
  intros (p & q & ->). exists (pre +:+ p), q.
  now rewrite append_assoc.
Qed.

Create HintDb includes_db.
#[export] Hint Resolve includes_here includes_later : includes_db.

Lemma requestInfo_url (url method parameters : string) :
  includes (requestInfo url method parameters) url.
Proof. unfold requestInfo. auto 10 with includes_db. Qed.

Lemma requestInfo_method (url method parameters : string) :
  includes (requestInfo url method parameters) ("Method: " +:+ method).
Proof.
  unfold requestInfo.
  rewrite <- (append_assoc "Method: " method).
  auto 10 with includes_db.
Qed.

Lemma requestInfo_url_line (url method parameters : string) :
  includes (requestInfo url method parameters) ("URL: " +:+ url).
Proof.
  unfold requestInfo.
  rewrite <- (append_assoc "URL: " url).
  auto 10 with includes_db.
Qed.

Lemma requestInfo_parameters_line (url method parameters : string) :
  includes (requestInfo url method parameters) ("Parameters: " +:+ parameters).
Proof.
  unfold requestInfo.
  rewrite <- (append_assoc "Parameters: " parameters).
  auto 15 with includes_db.
Qed.

Lemma requestInfo_parameters (url method parameters : string) :
  includes (requestInfo url method parameters) parameters.
Proof. unfold requestInfo. auto 15 with includes_db. Qed.

(** ** The query of a URL *)

Lemma append_entries_searchParams (entries : list (string * string)) (u : URL) :
  searchParams (append_entries entries u) = (searchParams u ++ entries)%list.
Proof.
  unfold append_entries. revert u.
  induction entries as [|[k v] entries IH]; intros u; simpl.
  - now rewrite app_nil_r.
  - rewrite IH. simpl. now rewrite <- app_assoc.
Qed.

Lemma append_entries_location (entries : list (string * string)) (u : URL) :
  url_location (append_entries entries u) = url_location u
  /\ url_fragment (append_entries entries u) = url_fragment u.
Proof.
  unfold append_entries. revert u.
  induction entries as [|[k v] entries IH]; intros u; simpl; [easy|].
  destruct (IH (searchParams_append k v u)) as [Hl Hf].
  now rewrite Hl, Hf.
Qed.

(** What the [auth] loop of the POST branch does to the parsed target:
    the pairs go to the end of the query, nothing else changes. *)
Lemma with_auth_parts (auth0 : option (list (string * string))) (u : URL) :
  searchParams (with_auth auth0 u)
  = (searchParams u
     ++ match auth0 with
        | Some entries => entries
        | None => []
        end)%list
  /\ url_location (with_auth auth0 u) = url_location u
  /\ url_fragment (with_auth auth0 u) = url_fragment u.
Proof.
  destruct auth0 as [entries|]; simpl.
  - split; [apply append_entries_searchParams|apply append_entries_location].
  - now rewrite app_nil_r.
Qed.

(** ** The paths of [request] *)

Section RequestFacts.

Context {GetParams PostParams Payload ClientRequest ProxyConfig : Type}.
Context {stringify_get : JSONStringify GetParams}.
Context {stringify_post : JSONStringify PostParams}.
Context {stringify_request : JSONStringifyOrThrow ClientRequest}.
Context {stringify_error : JSONStringify (AxiosError Payload ClientRequest)}.
Variable URL_parse : string -> option URL.
Variable URL_toString : URL -> string.

Implicit Types client : Client Payload ClientRequest ProxyConfig.
Implicit Types args : requestArgs GetParams PostParams.
Implicit Types transport :
  AxiosCall GetParams PostParams Payload ClientRequest ProxyConfig ->
  AxiosError Payload ClientRequest + AxiosResponse Payload.
Implicit Types error : AxiosError Payload ClientRequest.
Implicit Types u : URL.

Ltac unfold_request :=
  unfold settle, request, bind, this, catch, then_, await, resolve, reject;
  simpl.

Lemma settle_unparsed transport client args :
  URL_parse (baseURL client +:+ endpoint args) = None ->
  settle URL_parse URL_toString transport client args
  = ([], (inl (URLTypeError (baseURL client +:+ endpoint args)), client)).
Proof. intros Hparse. unfold_request. now rewrite Hparse. Qed.

Lemma settle_post_dry transport client args u body :
  URL_parse (baseURL client +:+ endpoint args) = Some u ->
  postParams args = Some body ->
  strictly_true (dryRun args) = true ->
  settle URL_parse URL_toString transport client args
  = ([], (inr (RequestInfo
                 (requestInfo (URL_toString (with_auth (auth args) u))
                    "POST" (JSON_stringify body))),
          client)).
Proof.
  intros Hparse Hpost Hdry. unfold_request.
  now rewrite Hparse, Hpost, Hdry.
Qed.

Lemma settle_post transport client args u body :
  URL_parse (baseURL client +:+ endpoint args) = Some u ->
  postParams args = Some body ->
  strictly_true (dryRun args) = false ->
  let call := axios_post (axiosInstance client)
                (URL_toString (with_auth (auth args) u)) body in
  settle URL_parse URL_toString transport client args
  = ([call], (post_settles (transport call), client)).
Proof.
  intros Hparse Hpost Hdry call. unfold_request.
  rewrite Hparse, Hpost, Hdry. simpl. fold call.
  now destruct (transport call).
Qed.

Lemma settle_get_dry transport client args u :
  URL_parse (baseURL client +:+ endpoint args) = Some u ->
  postParams args = None ->
  strictly_true (dryRun args) = true ->
  settle URL_parse URL_toString transport client args
  = ([], (inr (RequestInfo
                 (requestInfo (URL_toString u) "GET"
                    (interpolate JSON_stringify (getParams args)))),
          client)).
Proof.
  intros Hparse Hpost Hdry. unfold_request.
  now rewrite Hparse, Hpost, Hdry.
Qed.

Lemma settle_get transport client args u :
  URL_parse (baseURL client +:+ endpoint args) = Some u ->
  postParams args = None ->
  strictly_true (dryRun args) = false ->
  let call := axios_get (axiosInstance client) (URL_toString u)
                (getParams args) in
  settle URL_parse URL_toString transport client args
  = ([call], (get_settles (transport call), client)).
Proof.
  intros Hparse Hpost Hdry call. unfold_request.
  rewrite Hparse, Hpost, Hdry. simpl. fold call.
  now destruct (transport call).
Qed.

(** Every path leaves the client as it was. *)
Lemma settle_client transport client args :
  snd (snd (settle URL_parse URL_toString transport client args)) = client.
Proof.
  destruct (URL_parse (baseURL client +:+ endpoint args)) as [u|] eqn:Hparse;
    [|now rewrite settle_unparsed].
  destruct (postParams args) as [body|] eqn:Hpost;
    destruct (strictly_true (dryRun args)) eqn:Hdry.
  - now rewrite (settle_post_dry _ _ _ u body).
  - now rewrite (settle_post _ _ _ u body).
  - now rewrite (settle_get_dry _ _ _ u).
  - now rewrite (settle_get _ _ _ u).
Qed.

(** ** Claims about [request] *)

(** C1, as amended: the [auth] pairs are appended to the query of the
    target URL exactly on the POST branch; when [postParams] is
    [undefined] the URL that is shown by a dry run or handed to the
    transport is the parsed target as it is, whatever [auth] holds. *)
Theorem auth_appended_on_post_only transport client args u entries :
  URL_parse (baseURL client +:+ endpoint args) = Some u ->
  auth args = Some entries ->
  let target :=
    match postParams args with
    | Some _ => append_entries entries u
    | None => u
    end in
  searchParams target
  = match postParams args with
    | Some _ => (searchParams u ++ entries)%list
    | None => searchParams u
    end
  /\ (strictly_true (dryRun args) = false ->
      map call_url (calls_of URL_parse URL_toString transport client args)
      = [URL_toString target])
  /\ (strictly_true (dryRun args) = true ->
      exists method parameters,
        outcome_of URL_parse URL_toString transport client args
        = inr (RequestInfo
                 (requestInfo (URL_toString target) method parameters))).
Proof.
  intros Hparse Hauth. unfold calls_of, outcome_of.
  destruct (postParams args) as [body|] eqn:Hpost; cbv zeta.
  - split; [apply append_entries_searchParams|]. split; intros Hdry.
    + rewrite (settle_post _ _ _ u body) by assumption.
      now rewrite Hauth.
    + rewrite (settle_post_dry _ _ _ u body) by assumption.
      rewrite Hauth. now eexists _, _.
  - split; [reflexivity|]. split; intros Hdry.
    + now rewrite (settle_get _ _ _ u).
    + rewrite (settle_get_dry _ _ _ u) by assumption.
      now eexists _, _.
Qed.

(** C2: once the target URL is parsed, a request goes out as POST exactly
    when [postParams] is not [undefined], and as GET otherwise, whatever
    [getParams] is; a dry run names the same method. *)
Theorem routed_by_postParams transport client args u :
  URL_parse (baseURL client +:+ endpoint args) = Some u ->
  (strictly_true (dryRun args) = false ->
   (map call_method (calls_of URL_parse URL_toString transport client args)
    = [POST] <-> postParams args <> None)
   /\ (map call_method (calls_of URL_parse URL_toString transport client args)
       = [GET] <-> postParams args = None))
  /\ (strictly_true (dryRun args) = true ->
      outcome_of URL_parse URL_toString transport client args
      = inr (RequestInfo
          match postParams args with
          | Some body =>
              requestInfo (URL_toString (with_auth (auth args) u))
                "POST" (JSON_stringify body)
          | None =>
              requestInfo (URL_toString u)
                "GET" (interpolate JSON_stringify (getParams args))
          end)).
Proof.
  intros Hparse. unfold calls_of, outcome_of.
  destruct (postParams args) as [body|] eqn:Hpost; split; intros Hdry.
  - rewrite (settle_post _ _ _ u body) by assumption. simpl.
    split; split; congruence.
  - now rewrite (settle_post_dry _ _ _ u body).
  - rewrite (settle_get _ _ _ u) by assumption. simpl.
    split; split; congruence.
  - now rewrite (settle_get_dry _ _ _ u).
Qed.

(** C3: with [dryRun === true] no call reaches the transport, and for a
    target that parses the promise resolves with a string that contains
    the serialized final URL (on the POST branch the parsed target with
    the [auth] pairs added to its query, on the GET branch the parsed
    target), the method name of the branch taken and the JSON
    serialization of that branch's parameters: of [postParams] for POST,
    of [getParams] for GET, where an [undefined] [getParams] prints as
    such. *)
Theorem dry_run_describes_request transport client args :
  strictly_true (dryRun args) = true ->
  calls_of URL_parse URL_toString transport client args = []
  /\ forall u,
      URL_parse (baseURL client +:+ endpoint args) = Some u ->
      exists info final,
        outcome_of URL_parse URL_toString transport client args
        = inr (RequestInfo info)
        /\ url_location final = url_location u
        /\ url_fragment final = url_fragment u
        /\ includes info ("URL: " +:+ URL_toString final)
        /\ match postParams args with
           | Some body =>
               searchParams final
               = (searchParams u
                  ++ match auth args with
                     | Some entries => entries
                     | None => []
                     end)%list
               /\ includes info "Method: POST"
               /\ includes info ("Parameters: " +:+ JSON_stringify body)
           | None =>
               final = u
               /\ includes info "Method: GET"
               /\ match getParams args with
                  | Some params =>
                      includes info ("Parameters: " +:+ JSON_stringify params)
                  | None => includes info "Parameters: undefined"
                  end
           end.
Proof.
  intros Hdry. unfold calls_of, outcome_of. split.
  - destruct (URL_parse (baseURL client +:+ endpoint args)) as [u|] eqn:Hparse;
      [|now rewrite settle_unparsed].
    destruct (postParams args) as [body|] eqn:Hpost.
    + now rewrite (settle_post_dry _ _ _ u body).
    + now rewrite (settle_get_dry _ _ _ u).
  - intros u Hparse.
    destruct (postParams args) as [body|] eqn:Hpost.
    + rewrite (settle_post_dry _ _ _ u body) by assumption.
      exists (requestInfo (URL_toString (with_auth (auth args) u)) "POST"
                (JSON_stringify body)), (with_auth (auth args) u).
      split; [reflexivity|].
      destruct (with_auth_parts (auth args) u) as (Hq & Hl & Hf).
      repeat split; try assumption.
      * apply requestInfo_url_line.
      * exact (requestInfo_method _ "POST" _).
      * apply requestInfo_parameters_line.
    + rewrite (settle_get_dry _ _ _ u) by assumption.
      exists (requestInfo (URL_toString u) "GET"
                (interpolate JSON_stringify (getParams args))), u.
      split; [reflexivity|].
      repeat split.
      * apply requestInfo_url_line.
      * exact (requestInfo_method _ "GET" _).
      * destruct (getParams args) as [params|];
          exact (requestInfo_parameters_line _ _ _).
Qed.

(** C4: with [postParams] and [auth] both defined, the URL of the request
    (named by a dry run, or handed to the transport) is the serialization
    of the parsed target with every [auth] pair added, in order, at the
    end of its query, and the body (serialized by a dry run, or sent) is
    [postParams] itself; a dry run sends nothing. *)
Theorem post_auth_in_url_not_in_body transport client args u body entries :
  URL_parse (baseURL client +:+ endpoint args) = Some u ->
  postParams args = Some body ->
  auth args = Some entries ->
  exists final : URL,
    (forall kv, In kv entries -> In kv (searchParams final))
    /\ searchParams final = (searchParams u ++ entries)%list
    /\ url_location final = url_location u
    /\ url_fragment final = url_fragment u
    /\ (strictly_true (dryRun args) = true ->
        calls_of URL_parse URL_toString transport client args = []
        /\ exists info,
            outcome_of URL_parse URL_toString transport client args
            = inr (RequestInfo info)
            /\ info
               = nl +:+ spaces 16 +:+ "URL: " +:+ URL_toString final
                 +:+ nl +:+ spaces 16 +:+ "Method: POST"
                 +:+ nl +:+ spaces 16 +:+ "Parameters: "
                 +:+ JSON_stringify body
                 +:+ nl +:+ spaces 12
            /\ includes info ("URL: " +:+ URL_toString final)
            /\ includes info "Method: POST"
            /\ includes info ("Parameters: " +:+ JSON_stringify body))
    /\ (strictly_true (dryRun args) = false ->
        calls_of URL_parse URL_toString transport client args
        = [axios_post (axiosInstance client) (URL_toString final) body]).
Proof.
  intros Hparse Hpost Hauth. exists (append_entries entries u).
  unfold calls_of, outcome_of.
  destruct (append_entries_location entries u) as [Hl Hf].
  split; [|split; [|split; [|split; [|split]]]];
    [| apply append_entries_searchParams | exact Hl | exact Hf
     | intros Hdry..].
  - intros kv Hin. rewrite append_entries_searchParams.
    apply in_or_app. now right.
  - rewrite (settle_post_dry _ _ _ u body) by assumption.
    rewrite Hauth. simpl. split; [reflexivity|].
    eexists. split; [reflexivity|].
    split; [reflexivity|].
    repeat split.
    + apply requestInfo_url_line.
    + exact (requestInfo_method _ "POST" _).
    + apply requestInfo_parameters_line.
  - rewrite (settle_post _ _ _ u body) by assumption.
    now rewrite Hauth.
Qed.

(** C5, where the code departs from it: a GET that the transport fails
    with no response and with a request object that [JSON.stringify]
    cannot serialize does not reject with an API error: the handler
    throws while it builds the message, and the promise rejects with the
    [TypeError] of [JSON.stringify]. *)
Theorem get_failure_request_not_serializable
    transport client args u error req :
  URL_parse (baseURL client +:+ endpoint args) = Some u ->
  postParams args = None ->
  strictly_true (dryRun args) = false ->
  transport (axios_get (axiosInstance client) (URL_toString u) (getParams args))
  = inl error ->
  response error = None ->
  error_request error = Some req ->
  JSON_stringify_or_throw req = None ->
  outcome_of URL_parse URL_toString transport client args = inl JSONTypeError
  /\ (forall msg,
        outcome_of URL_parse URL_toString transport client args
        <> inl (RoutingJSAPIError msg))
  /\ (forall msg,
        outcome_of URL_parse URL_toString transport client args
        <> inl (RoutingJSClientError msg)).
Proof.
  intros Hparse Hpost Hdry Hfail Hres Hreq Hthrow. unfold outcome_of.
  rewrite (settle_get _ _ _ u) by assumption. cbv zeta. simpl.
  rewrite Hfail. unfold get_settles, get_failure.
  rewrite Hres, Hreq, Hthrow. repeat split; discriminate.
Qed.

(** X14: a GET that the transport fails is classified by what the error
    carries: with a response, an API error with the status and the
    message; with no response but a request object that serializes, an
    API error with the serialized request; with neither, a client error
    with the name and the message of the underlying error.  A request
    object that does not serialize leaves the [TypeError] of
    [JSON.stringify]. *)
Theorem get_failure_three_ways transport client args u error :
  URL_parse (baseURL client +:+ endpoint args) = Some u ->
  postParams args = None ->
  strictly_true (dryRun args) = false ->
  transport (axios_get (axiosInstance client) (URL_toString u) (getParams args))
  = inl error ->
  outcome_of URL_parse URL_toString transport client args
  = inl match response error, error_request error with
        | Some r, _ =>
            RoutingJSAPIError
              ("Request failed with status " +:+ pretty (status r)
               +:+ ": " +:+ message error)
        | None, Some req =>
            match JSON_stringify_or_throw req with
            | Some text =>
                RoutingJSAPIError ("Request failed with request " +:+ text)
            | None => JSONTypeError
            end
        | None, None =>
            RoutingJSClientError
              ("Request failed with error " +:+ name error +:+ "."
               +:+ nl +:+ spaces 29 +:+ "Message: " +:+ message error +:+ " ")
        end.
Proof.
  intros Hparse Hpost Hdry Hfail. unfold outcome_of.
  rewrite (settle_get _ _ _ u) by assumption. cbv zeta. simpl.
  rewrite Hfail. unfold get_settles, get_failure.
  now destruct (response error), (error_request error).
Qed.

(** C6: a POST that the transport fails, for whatever reason, rejects
    with an API error whose message carries the status of the response
    (or [undefined] when there is none) and the JSON dump of the failure;
    it never rejects with a client error. *)
Theorem post_failure_is_api_error transport client args u body error :
  URL_parse (baseURL client +:+ endpoint args) = Some u ->
  postParams args = Some body ->
  strictly_true (dryRun args) = false ->
  transport (axios_post (axiosInstance client)
               (URL_toString (with_auth (auth args) u)) body)
  = inl error ->
  outcome_of URL_parse URL_toString transport client args
  = inl (RoutingJSAPIError
           ("Request failed with status "
            +:+ match response error with
                | Some r => pretty (status r)
                | None => "undefined"
                end
            +:+ ": " +:+ JSON_stringify error))
  /\ forall msg,
      outcome_of URL_parse URL_toString transport client args
      <> inl (RoutingJSClientError msg).
Proof.
  intros Hparse Hpost Hdry Hfail. unfold outcome_of.
  rewrite (settle_post _ _ _ u body) by assumption. cbv zeta. simpl.
  rewrite Hfail. unfold post_settles, post_failure, response_status.
  split; [now destruct (response error)|discriminate].
Qed.

(** C9: [request] reads the client and never writes it: whatever the
    arguments and whatever the transport answers, every field of the
    client is afterwards what it was before. *)
Theorem request_leaves_client_unchanged transport client args :
  client_after URL_parse URL_toString transport client args = client.
Proof. apply settle_client. Qed.

(** C10: when base URL and endpoint together do not parse, the promise
    rejects with the parser's own error, no call is made, and the error is
    neither an API error nor a client error; [dryRun] plays no part. *)
Theorem unparsed_target_rejects_raw transport client args :
  URL_parse (baseURL client +:+ endpoint args) = None ->
  calls_of URL_parse URL_toString transport client args = []
  /\ exists raw,
      outcome_of URL_parse URL_toString transport client args = inl raw
      /\ raw = URLTypeError (baseURL client +:+ endpoint args)
      /\ isAPIError raw = false
      /\ isClientError raw = false.
Proof.
  intros Hparse. unfold calls_of, outcome_of.
  rewrite settle_unparsed by assumption.
  split; [reflexivity|]. now eexists.
Qed.

End RequestFacts.

(** ** Claims about the constructor *)

Section ConstructorFacts.

Context {Payload ClientRequest ProxyConfig : Type}.
Variable options : Options.
Variable isNetworkOrIdempotentRequestError :
  AxiosError Payload ClientRequest -> bool.
Variable exponentialDelay : Z -> AxiosError Payload ClientRequest -> Z.

Implicit Types custom : gmap string HeaderValue.
Implicit Types extra : option (AxiosRequestConfig ProxyConfig).

Lemma merge_headers_custom ua custom k v :
  custom !! k = Some v ->
  merge_headers options ua (Some custom) !! k = Some v.
Proof. intros Hk. unfold merge_headers. simpl. now apply lookup_union_Some_l. Qed.

Lemma merge_headers_default ua custom k :
  custom !! k = None ->
  merge_headers options ua (Some custom) !! k
  = (<["User-Agent" := HString ua]> (defaultHeaders options)) !! k.
Proof. intros Hk. unfold merge_headers. simpl. now apply lookup_union_r. Qed.

(** C7: of the merged headers of a client built with custom headers,
    every custom header is there with the caller's value (so a custom
    [User-Agent] replaces the default one), every default header under a
    key the caller did not use is kept, and without a custom [User-Agent]
    that header is the client's user agent. *)
Theorem custom_headers_override_defaults
    baseURL0 ua tmo retry429 custom maxR extra :
  let client :=
    new_Client options isNetworkOrIdempotentRequestError exponentialDelay
      baseURL0 ua tmo retry429 (Some custom) maxR extra in
  (forall k v, custom !! k = Some v -> headers client !! k = Some v)
  /\ (forall k, custom !! k = None -> k <> "User-Agent" ->
        headers client !! k = defaultHeaders options !! k)
  /\ (custom !! "User-Agent" = None ->
        headers client !! "User-Agent"
        = Some (HString (default_to (defaultUserAgent options) ua))).
Proof.
  intros client. unfold client, new_Client. simpl.
  split; [|split].
  - intros k v Hk. now apply merge_headers_custom.
  - intros k Hk Hua. rewrite merge_headers_default by assumption.
    now rewrite lookup_insert_ne.
  - intros Hk. rewrite merge_headers_default by assumption.
    now rewrite lookup_insert_eq.
Qed.


(** X15: the retry configuration installed on the transport instance has
    the client's maximum number of retries and the library's exponential
    delay; with retry-on-429 set its condition holds exactly for the
    errors the library counts as network or idempotent-request errors and
    for those whose response status is 429; with retry-on-429 unset or
    left out the condition it holds is [undefined]. *)
Theorem retry_configuration baseURL0 ua tmo retry429 hdrs maxR extra :
  let client :=
    new_Client (ProxyConfig := ProxyConfig)
      options isNetworkOrIdempotentRequestError exponentialDelay
      baseURL0 ua tmo retry429 hdrs maxR extra in
  exists cfg,
    retry_installed (axiosInstance client) = Some cfg
    /\ retries cfg = maxRetries client
    /\ maxRetries client = default_to (defaultMaxRetries options) maxR
    /\ retryDelay cfg = exponentialDelay
    /\ (retry429 = Some true ->
        exists condition,
          retryCondition cfg = Some condition
          /\ forall error,
              condition error = true
              <-> (isNetworkOrIdempotentRequestError error = true
                   \/ response_status error = Some 429))
    /\ (retry429 <> Some true -> retryCondition cfg = None).
Proof.
  intros client. eexists. split; [reflexivity|]. simpl.
  repeat split.
  - intros ->. simpl. eexists. split; [reflexivity|].
    intros error. unfold retry_on_429.
    rewrite orb_true_iff, bool_decide_eq_true. reflexivity.
  - intros Hoff. destruct retry429 as [[|]|]; simpl; congruence.
Qed.

End ConstructorFacts.

(** ** The claims on the sample platform *)

(** C1, as stated, fails on the GET branch: [auth] is given, and the URL
    handed to the transport is the parsed target, which is not the URL
    with the [auth] pair appended and has an empty query. *)
Lemma auth_ignored_on_get :
  auth Sample.get_with_auth = Some Sample.token
  /\ Sample.parse (baseURL Sample.client +:+ endpoint Sample.get_with_auth)
     = Some Sample.driving_url
  /\ map call_url
       (calls_of Sample.parse Sample.serialize Sample.up
          Sample.client Sample.get_with_auth)
     = ["https://api.mapbox.com/route/v1/driving"]
  /\ Sample.serialize (append_entries Sample.token Sample.driving_url)
     = "https://api.mapbox.com/route/v1/driving?access_token=tok"
  /\ map call_url
       (calls_of Sample.parse Sample.serialize Sample.up
          Sample.client Sample.get_with_auth)
     <> [Sample.serialize (append_entries Sample.token Sample.driving_url)]
  /\ outcome_of Sample.parse Sample.serialize Sample.up
       Sample.client Sample.get_with_auth_dry
     = inr (RequestInfo
              (requestInfo "https://api.mapbox.com/route/v1/driving"
                 "GET" "undefined")).
Proof.
  repeat split. intros Heq. vm_compute in Heq. discriminate Heq.
Qed.

Lemma auth_appended_on_post_only_sample :
  map call_url
    (calls_of Sample.parse Sample.serialize Sample.up
       Sample.client Sample.valhalla_live)
  = ["https://api.mapbox.com/valhalla/v1/route?access_token=tok"]
  /\ map call_url
       (calls_of Sample.parse Sample.serialize Sample.up
          Sample.client Sample.get_with_auth)
     = ["https://api.mapbox.com/route/v1/driving"].
Proof.
  split.
  - apply (auth_appended_on_post_only Sample.parse Sample.serialize Sample.up
             Sample.client Sample.valhalla_live Sample.valhalla_url
             Sample.token eq_refl eq_refl).
    reflexivity.
  - apply (auth_appended_on_post_only Sample.parse Sample.serialize Sample.up
             Sample.client Sample.get_with_auth Sample.driving_url
             Sample.token eq_refl eq_refl).
    reflexivity.
Defined.

Lemma routed_by_postParams_sample :
  map call_method
    (calls_of Sample.parse Sample.serialize Sample.up
       Sample.client Sample.empty_post)
  = [POST]
  /\ map call_method
       (calls_of Sample.parse Sample.serialize Sample.up
          Sample.client Sample.bare_get)
     = [GET].
Proof.
  split.
  - apply (routed_by_postParams Sample.parse Sample.serialize Sample.up
             Sample.client Sample.empty_post Sample.valhalla_url eq_refl);
      [reflexivity|discriminate].
  - apply (routed_by_postParams Sample.parse Sample.serialize Sample.up
             Sample.client Sample.bare_get Sample.driving_url eq_refl);
      reflexivity.
Defined.

Lemma dry_run_describes_request_sample :
  (calls_of Sample.parse Sample.serialize Sample.up
     Sample.client Sample.valhalla_dry = []
   /\ exists info final,
       outcome_of Sample.parse Sample.serialize Sample.up
         Sample.client Sample.valhalla_dry = inr (RequestInfo info)
       /\ searchParams final = [("access_token", "tok")]
       /\ includes info ("URL: " +:+ Sample.serialize final)
       /\ includes info "Method: POST"
       /\ includes info ("Parameters: " +:+ JSON_stringify Sample.route))
  /\ (exists info,
        outcome_of Sample.parse Sample.serialize Sample.up
          Sample.client Sample.get_dry_with_params = inr (RequestInfo info)
        /\ includes info "URL: https://api.mapbox.com/route/v1/driving"
        /\ includes info "Method: GET"
        /\ includes info
             ("Parameters: "
              +:+ JSON_stringify ([("steps", 1)] : Sample.Params)))
  /\ (exists info,
        outcome_of Sample.parse Sample.serialize Sample.up
          Sample.client Sample.get_dry_bare = inr (RequestInfo info)
        /\ includes info "URL: https://api.mapbox.com/route/v1/driving"
        /\ includes info "Method: GET"
        /\ includes info "Parameters: undefined").
Proof.
  split; [|split].
  - destruct (dry_run_describes_request Sample.parse Sample.serialize
                Sample.up Sample.client Sample.valhalla_dry eq_refl)
      as [Hcalls Hinfo].
    split; [exact Hcalls|].
    destruct (Hinfo Sample.valhalla_url eq_refl)
      as (info & final & Hout & _ & _ & Hurl & Hquery & Hmethod & Hparams).
    exists info, final. repeat split; assumption.
  - destruct (dry_run_describes_request Sample.parse Sample.serialize
                Sample.up Sample.client Sample.get_dry_with_params eq_refl)
      as [_ Hinfo].
    destruct (Hinfo Sample.driving_url eq_refl)
      as (info & final & Hout & _ & _ & Hurl & Hfinal & Hmethod & Hparams).
    rewrite Hfinal in Hurl.
    exists info. repeat split; assumption.
  - destruct (dry_run_describes_request Sample.parse Sample.serialize
                Sample.up Sample.client Sample.get_dry_bare eq_refl)
      as [_ Hinfo].
    destruct (Hinfo Sample.driving_url eq_refl)
      as (info & final & Hout & _ & _ & Hurl & Hfinal & Hmethod & Hparams).
    rewrite Hfinal in Hurl.
    exists info. repeat split; assumption.
Defined.

Lemma post_auth_in_url_not_in_body_sample :
  (exists final : URL,
     searchParams final = [("access_token", "tok")]
     /\ url_location final = "https://api.mapbox.com/valhalla/v1/route"
     /\ calls_of Sample.parse Sample.serialize Sample.up
          Sample.client Sample.valhalla_dry = []
     /\ exists info,
         outcome_of Sample.parse Sample.serialize Sample.up
           Sample.client Sample.valhalla_dry = inr (RequestInfo info)
         /\ includes info ("URL: " +:+ Sample.serialize final)
         /\ includes info "Method: POST"
         /\ includes info ("Parameters: " +:+ JSON_stringify Sample.route))
  /\ (exists final : URL,
        searchParams final = [("access_token", "tok")]
        /\ url_location final = "https://api.mapbox.com/valhalla/v1/route"
        /\ calls_of Sample.parse Sample.serialize Sample.up
             Sample.client Sample.valhalla_live
           = [axios_post (axiosInstance Sample.client)
                (Sample.serialize final) Sample.route]).
Proof.
  split.
  - destruct (post_auth_in_url_not_in_body Sample.parse Sample.serialize
                Sample.up Sample.client Sample.valhalla_dry
                Sample.valhalla_url Sample.route Sample.token
                eq_refl eq_refl eq_refl)
      as (final & _ & Hquery & Hloc & _ & Hdry & _).
    destruct (Hdry eq_refl)
      as (Hcalls & info & Hout & _ & Hurl & Hmethod & Hparams).
    exists final. repeat split; try assumption.
    exists info. repeat split; assumption.
  - destruct (post_auth_in_url_not_in_body Sample.parse Sample.serialize
                Sample.up Sample.client Sample.valhalla_live
                Sample.valhalla_url Sample.route Sample.token
                eq_refl eq_refl eq_refl)
      as (final & _ & Hquery & Hloc & _ & _ & Hlive).
    exists final. repeat split; try assumption.
    exact (Hlive eq_refl).
Defined.

Lemma get_failure_request_not_serializable_sample :
  outcome_of Sample.parse Sample.serialize
    (Sample.down Sample.no_reply_on_node) Sample.client Sample.bare_get
  = inl JSONTypeError
  /\ (forall msg,
        outcome_of Sample.parse Sample.serialize
          (Sample.down Sample.no_reply_on_node) Sample.client Sample.bare_get
        <> inl (RoutingJSAPIError msg))
  /\ (forall msg,
        outcome_of Sample.parse Sample.serialize
          (Sample.down Sample.no_reply_on_node) Sample.client Sample.bare_get
        <> inl (RoutingJSClientError msg)).
Proof.
  exact (get_failure_request_not_serializable Sample.parse Sample.serialize
           (Sample.down Sample.no_reply_on_node) Sample.client Sample.bare_get
           Sample.driving_url Sample.no_reply_on_node
           (Sample.CircularRequest "/route/v1/driving")
           eq_refl eq_refl eq_refl eq_refl eq_refl eq_refl eq_refl).
Defined.

Lemma get_failure_three_ways_sample :
  outcome_of Sample.parse Sample.serialize (Sample.down Sample.too_many)
    Sample.client Sample.bare_get
  = inl (RoutingJSAPIError
           "Request failed with status 429: Request failed with status code 429")
  /\ outcome_of Sample.parse Sample.serialize (Sample.down Sample.no_reply)
       Sample.client Sample.bare_get
     = inl (RoutingJSAPIError
              ("Request failed with request {"
               +:+ Sample.quoted "path" +:+ ":"
               +:+ Sample.quoted "/route/v1/driving" +:+ "}"))
  /\ outcome_of Sample.parse Sample.serialize (Sample.down Sample.setup_failed)
       Sample.client Sample.bare_get
     = inl (RoutingJSClientError
              ("Request failed with error TypeError."
               +:+ nl +:+ spaces 29 +:+ "Message: invalid header value ")).
Proof.
  split; [|split].
  - exact (get_failure_three_ways Sample.parse Sample.serialize
             (Sample.down Sample.too_many) Sample.client Sample.bare_get
             Sample.driving_url Sample.too_many
             eq_refl eq_refl eq_refl eq_refl).
  - exact (get_failure_three_ways Sample.parse Sample.serialize
             (Sample.down Sample.no_reply) Sample.client Sample.bare_get
             Sample.driving_url Sample.no_reply
             eq_refl eq_refl eq_refl eq_refl).
  - exact (get_failure_three_ways Sample.parse Sample.serialize
             (Sample.down Sample.setup_failed) Sample.client Sample.bare_get
             Sample.driving_url Sample.setup_failed
             eq_refl eq_refl eq_refl eq_refl).
Defined.

Lemma post_failure_is_api_error_sample :
  outcome_of Sample.parse Sample.serialize (Sample.down Sample.setup_failed)
    Sample.client Sample.empty_post
  = inl (RoutingJSAPIError
           ("Request failed with status undefined: "
            +:+ JSON_stringify Sample.setup_failed))
  /\ outcome_of Sample.parse Sample.serialize (Sample.down Sample.too_many)
       Sample.client Sample.valhalla_live
     = inl (RoutingJSAPIError
              ("Request failed with status 429: "
               +:+ JSON_stringify Sample.too_many)).
Proof.
  split.
  - apply (post_failure_is_api_error Sample.parse Sample.serialize
             (Sample.down Sample.setup_failed) Sample.client Sample.empty_post
             Sample.valhalla_url [] Sample.setup_failed
             eq_refl eq_refl eq_refl eq_refl).
  - apply (post_failure_is_api_error Sample.parse Sample.serialize
             (Sample.down Sample.too_many) Sample.client Sample.valhalla_live
             Sample.valhalla_url Sample.route Sample.too_many
             eq_refl eq_refl eq_refl eq_refl).
Defined.

Lemma unparsed_target_rejects_raw_sample :
  calls_of Sample.parse Sample.serialize Sample.up
    Sample.schemeless Sample.get_with_auth_dry = []
  /\ exists raw,
      outcome_of Sample.parse Sample.serialize Sample.up
        Sample.schemeless Sample.get_with_auth_dry = inl raw
      /\ raw = URLTypeError "api.mapbox.com/route/v1/driving"
      /\ isAPIError raw = false
      /\ isClientError raw = false.
Proof.
  exact (unparsed_target_rejects_raw Sample.parse Sample.serialize Sample.up
           Sample.schemeless Sample.get_with_auth_dry eq_refl).
Defined.


(** The constructor on the sample platform: a custom [User-Agent]
    replaces the default one and [Content-Type] stays. *)
Example custom_user_agent_sample :
  let custom : gmap string HeaderValue := {[ "User-Agent" := HString "mine" ]} in
  let client : Client Sample.Body Sample.Req unit :=
    new_Client Sample.opts Sample.network_error Sample.backoff
      "https://api.mapbox.com" None None None (Some custom) None None in
  headers client !! "User-Agent" = Some (HString "mine")
  /\ headers client !! "Content-Type" = Some (HString "application/json")
  /\ headers Sample.client !! "User-Agent" = Some (HString "routing-js").
Proof. vm_compute. repeat split. Qed.

(** On the sample client retry-on-429 is left out: the maximum number of
    retries is the default one and no condition is installed. *)
Example default_retry_sample :
  option_map retries (retry_installed (axiosInstance Sample.client)) = Some 5
  /\ option_map (fun cfg => is_Some_b (retryCondition cfg))
       (retry_installed (axiosInstance Sample.client)) = Some false.
Proof. vm_compute. split; reflexivity. Qed.

(** * Further properties *)

(** ** More about [request] *)

Section RequestMore.

Context {GetParams PostParams Payload ClientRequest ProxyConfig : Type}.
Context {stringify_get : JSONStringify GetParams}.
Context {stringify_post : JSONStringify PostParams}.
Context {stringify_request : JSONStringifyOrThrow ClientRequest}.
Context {stringify_error : JSONStringify (AxiosError Payload ClientRequest)}.
Variable URL_parse : string -> option URL.
Variable URL_toString : URL -> string.

Implicit Types client : Client Payload ClientRequest ProxyConfig.
Implicit Types args : requestArgs GetParams PostParams.
Implicit Types transport :
  AxiosCall GetParams PostParams Payload ClientRequest ProxyConfig ->
  AxiosError Payload ClientRequest + AxiosResponse Payload.
Implicit Types error : AxiosError Payload ClientRequest.
Implicit Types u : URL.

(** A request that is not a dry run and whose target parses makes its one
    call and settles as the branch taken settles the answer. *)
Lemma settle_live transport client args u :
  URL_parse (baseURL client +:+ endpoint args) = Some u ->
  strictly_true (dryRun args) = false ->
  settle URL_parse URL_toString transport client args
  = ([live_call URL_toString client args u],
     (match postParams args with
      | Some _ => post_settles (transport (live_call URL_toString client args u))
      | None => get_settles (transport (live_call URL_toString client args u))
      end, client)).
Proof.
  intros Hparse Hdry. unfold live_call.
  destruct (postParams args) as [body|] eqn:Hpost.
  - now rewrite (settle_post _ _ _ _ _ u body).
  - now rewrite (settle_get _ _ _ _ _ u).
Qed.

(** A dry run settles with the description of the branch taken. *)
Lemma settle_dry transport client args u :
  URL_parse (baseURL client +:+ endpoint args) = Some u ->
  strictly_true (dryRun args) = true ->
  settle URL_parse URL_toString transport client args
  = ([], (inr (RequestInfo
           match postParams args with
           | Some body =>
               requestInfo (URL_toString (with_auth (auth args) u))
                 "POST" (JSON_stringify body)
           | None =>
               requestInfo (URL_toString u)
                 "GET" (interpolate JSON_stringify (getParams args))
           end), client)).
Proof.
  intros Hparse Hdry.
  destruct (postParams args) as [body|] eqn:Hpost.
  - now rewrite (settle_post_dry _ _ _ _ _ u body).
  - now rewrite (settle_get_dry _ _ _ _ _ u).
Qed.

(** X1: when the transport answers the call of a request with a response,
    on the GET branch as on the POST branch, the promise resolves with
    the [data] of that response and nothing else of it. *)
Theorem success_resolves_with_data transport client args u res :
  URL_parse (baseURL client +:+ endpoint args) = Some u ->
  strictly_true (dryRun args) = false ->
  transport (live_call URL_toString client args u) = inr res ->
  outcome_of URL_parse URL_toString transport client args
  = inr (ResponseData (data res)).
Proof.
  intros Hparse Hdry Hans. unfold outcome_of.
  rewrite (settle_live _ _ _ u) by assumption. simpl.
  rewrite Hans. now destruct (postParams args).
Qed.

(** X2: a request never makes more than one call on the transport, and
    it makes exactly one precisely when its target parses and it is not a
    dry run. *)
Theorem at_most_one_call transport client args :
  (length (calls_of URL_parse URL_toString transport client args) <= 1)%nat
  /\ (length (calls_of URL_parse URL_toString transport client args) = 1%nat
      <-> (URL_parse (baseURL client +:+ endpoint args) <> None
           /\ strictly_true (dryRun args) = false)).
Proof.
  unfold calls_of.
  destruct (URL_parse (baseURL client +:+ endpoint args)) as [u|] eqn:Hparse.
  - destruct (strictly_true (dryRun args)) eqn:Hdry.
    + rewrite (settle_dry _ _ _ u) by assumption. simpl.
      split; [lia|]. split; [discriminate|]. intros [_ ?]. discriminate.
    + rewrite (settle_live _ _ _ u) by assumption. simpl.
      split; [lia|]. split; [|reflexivity]. intros _. split; congruence.
  - rewrite settle_unparsed by assumption. simpl.
    split; [lia|]. split; [discriminate|]. intros [? _]. congruence.
Qed.

(** X3: with [postParams] defined, [getParams] is never read: a request
    that differs only in its [getParams] makes the same call and settles
    the same way. *)
Theorem getParams_ignored_on_post transport client args body other :
  postParams args = Some body ->
  settle URL_parse URL_toString transport client
    (mkArgs (endpoint args) other (postParams args) (auth args) (dryRun args))
  = settle URL_parse URL_toString transport client args.
Proof.
  intros Hpost.
  destruct (URL_parse (baseURL client +:+ endpoint args)) as [u|] eqn:Hparse.
  - destruct (strictly_true (dryRun args)) eqn:Hdry.
    + rewrite (settle_post_dry _ _ _ _ _ u body) by assumption.
      now rewrite (settle_post_dry _ _ _ _ _ u body).
    + rewrite (settle_post _ _ _ _ _ u body) by assumption.
      now rewrite (settle_post _ _ _ _ _ u body).
  - rewrite settle_unparsed by assumption.
    now rewrite settle_unparsed.
Qed.

(** X4: what a dry run settles with depends on the base URL of the client
    and on the arguments only: not on the transport, nor on any other
    field of the client. *)
Theorem dry_run_depends_on_baseURL_only
    transport transport' client client' args :
  strictly_true (dryRun args) = true ->
  baseURL client = baseURL client' ->
  outcome_of URL_parse URL_toString transport client args
  = outcome_of URL_parse URL_toString transport' client' args.
Proof.
  intros Hdry Hbase. unfold outcome_of.
  destruct (URL_parse (baseURL client +:+ endpoint args)) as [u|] eqn:Hparse.
  - rewrite (settle_dry _ _ _ u) by assumption.
    rewrite Hbase in Hparse.
    now rewrite (settle_dry _ _ _ u).
  - rewrite settle_unparsed by assumption.
    rewrite Hbase in Hparse.
    rewrite settle_unparsed by assumption. simpl. now rewrite Hbase.
Qed.

(** X5: a client error comes from one place only: the GET branch of a
    request that is not a dry run, whose target parsed, and whose call the
    transport failed with an error that has neither a response nor a
    request object. *)
Theorem client_error_only_from_get_setup transport client args msg :
  outcome_of URL_parse URL_toString transport client args
  = inl (RoutingJSClientError msg) ->
  postParams args = None
  /\ strictly_true (dryRun args) = false
  /\ exists u error,
      URL_parse (baseURL client +:+ endpoint args) = Some u
      /\ transport (axios_get (axiosInstance client) (URL_toString u)
                      (getParams args)) = inl error
      /\ response error = None
      /\ error_request error = None.
Proof.
  unfold outcome_of.
  destruct (URL_parse (baseURL client +:+ endpoint args)) as [u|] eqn:Hparse;
    [|rewrite settle_unparsed by assumption; discriminate].
  destruct (strictly_true (dryRun args)) eqn:Hdry;
    [rewrite (settle_dry _ _ _ u) by assumption; discriminate|].
  destruct (postParams args) as [body|] eqn:Hpost.
  - rewrite (settle_post _ _ _ _ _ u body) by assumption. simpl.
    destruct (transport _); discriminate.
  - rewrite (settle_get _ _ _ _ _ u) by assumption. simpl.
    destruct (transport _) as [error|res] eqn:Hans; [|discriminate].
    unfold get_settles, get_failure.
    destruct (response error) eqn:Hres; [discriminate|].
    destruct (error_request error) as [req|] eqn:Hreq;
      [destruct (JSON_stringify_or_throw req); discriminate|].
    intros _. repeat split. now exists u, error.
Qed.

(** X6: the promise resolves with a string only on a dry run; a request
    that reaches the transport resolves with the payload of a response or
    rejects. *)
Theorem info_string_only_on_dry_run transport client args info :
  outcome_of URL_parse URL_toString transport client args
  = inr (RequestInfo info) ->
  strictly_true (dryRun args) = true
  /\ calls_of URL_parse URL_toString transport client args = [].
Proof.
  unfold outcome_of, calls_of.
  destruct (URL_parse (baseURL client +:+ endpoint args)) as [u|] eqn:Hparse;
    [|rewrite settle_unparsed by assumption; discriminate].
  destruct (strictly_true (dryRun args)) eqn:Hdry.
  - now rewrite (settle_dry _ _ _ u).
  - rewrite (settle_live _ _ _ u) by assumption. simpl.
    destruct (postParams args);
      destruct (transport _); discriminate.
Qed.

(** Every call a request makes is made on the transport instance of the
    client it was called on. *)
Lemma calls_use_client_instance transport client args :
  Forall (fun call => call_instance call = axiosInstance client)
    (calls_of URL_parse URL_toString transport client args).
Proof.
  unfold calls_of.
  destruct (URL_parse (baseURL client +:+ endpoint args)) as [u|] eqn:Hparse;
    [|rewrite settle_unparsed by assumption; constructor].
  destruct (strictly_true (dryRun args)) eqn:Hdry.
  - rewrite (settle_dry _ _ _ u) by assumption. constructor.
  - rewrite (settle_live _ _ _ u) by assumption. simpl.
    constructor; [|constructor].
    unfold live_call. now destruct (postParams args).
Qed.

End RequestMore.

(** ** More about the constructor *)

Section ConstructorMore.

Context {Payload ClientRequest ProxyConfig : Type}.
Variable options : Options.
Variable isNetworkOrIdempotentRequestError :
  AxiosError Payload ClientRequest -> bool.
Variable exponentialDelay : Z -> AxiosError Payload ClientRequest -> Z.

Implicit Types hdrs : option (gmap string HeaderValue).
Implicit Types extra : option (AxiosRequestConfig ProxyConfig).
Implicit Types over : AxiosRequestConfig ProxyConfig.

(** X7: the transport instance is created with the options the client
    keeps in [axiosOptions], and installing the retry configuration does
    not change them.  Where [additionalAxiosOpts] is left out, or lacks
    the key [headers] (the key [timeout]), these options carry the merged
    headers (the timeout) of the client; where it has the key with the
    value [undefined], the spread copies that and the transport is
    created with no headers (no timeout) at all. *)
Theorem transport_created_with_client_options
    baseURL0 ua tmo retry429 hdrs maxR extra :
  let client :=
    new_Client options isNetworkOrIdempotentRequestError exponentialDelay
      baseURL0 ua tmo retry429 hdrs maxR extra in
  defaults (axiosInstance client) = axiosOptions client
  /\ ((forall over, extra = Some over -> key_headers over = Absent) ->
      cfg_headers (axiosOptions client) = Some (headers client))
  /\ ((forall over, extra = Some over -> key_timeout over = Absent) ->
      cfg_timeout (axiosOptions client) = Some (timeout client))
  /\ (forall over, extra = Some over -> key_headers over = Present None ->
        cfg_headers (axiosOptions client) = None)
  /\ (forall over, extra = Some over -> key_timeout over = Present None ->
        cfg_timeout (axiosOptions client) = None).
Proof.
  intros client. split; [reflexivity|].
  unfold client, new_Client, cfg_headers, cfg_timeout. simpl.
  split; [|split; [|split]].
  - intros Habsent. destruct extra as [over|]; simpl; [|reflexivity].
    now rewrite (Habsent over eq_refl).
  - intros Habsent. destruct extra as [over|]; simpl; [|reflexivity].
    now rewrite (Habsent over eq_refl).
  - intros over -> Hundef. simpl. now rewrite Hundef.
  - intros over -> Hundef. simpl. now rewrite Hundef.
Qed.

(** X8: [headers] and [timeout] given in [additionalAxiosOpts] replace,
    whole, what the constructor computed for the transport: none of the
    default headers, of the [User-Agent] header or of the caller's headers
    is merged into such [headers]; the client's own [headers] and
    [timeout] fields stay what they are without [additionalAxiosOpts]. *)
Theorem additional_options_replace_headers_and_timeout
    baseURL0 ua tmo retry429 hdrs maxR over :
  let client :=
    new_Client options isNetworkOrIdempotentRequestError exponentialDelay
      baseURL0 ua tmo retry429 hdrs maxR (Some over) in
  let plain :=
    new_Client (ProxyConfig := ProxyConfig)
      options isNetworkOrIdempotentRequestError exponentialDelay
      baseURL0 ua tmo retry429 hdrs maxR None in
  (forall h, cfg_headers over = Some h ->
     cfg_headers (defaults (axiosInstance client)) = Some h)
  /\ (forall t, cfg_timeout over = Some t ->
        cfg_timeout (defaults (axiosInstance client)) = Some t)
  /\ headers client = headers plain
  /\ timeout client = timeout plain.
Proof.
  intros client plain.
  unfold client, plain, new_Client, cfg_headers, cfg_timeout. simpl.
  split; [|split; [|split; reflexivity]].
  - intros h Hh. destruct (key_headers over); simpl in *; congruence.
  - intros t Ht. destruct (key_timeout over); simpl in *; congruence.
Qed.

(** X9: the [proxy] field the client exposes is the proxy setting its
    transport instance was created with, and there is none when
    [additionalAxiosOpts] is left out. *)
Theorem proxy_is_what_transport_uses
    baseURL0 ua tmo retry429 hdrs maxR extra :
  let client :=
    new_Client options isNetworkOrIdempotentRequestError exponentialDelay
      baseURL0 ua tmo retry429 hdrs maxR extra in
  proxy client = cfg_proxy (defaults (axiosInstance client))
  /\ (extra = None -> proxy client = None).
Proof.
  intros client. unfold client, new_Client, cfg_proxy. simpl.
  split; [|now intros ->].
  destruct extra as [over|]; [|reflexivity].
  simpl. now destruct (key_proxy over).
Qed.

(** X10: the keys of the merged headers are the keys of the caller's
    headers, the keys of the default headers and [User-Agent]: the
    constructor neither drops nor invents a header, and [User-Agent] is
    always there. *)
Theorem merged_header_keys baseURL0 ua tmo retry429 hdrs maxR extra :
  let client :=
    new_Client options isNetworkOrIdempotentRequestError exponentialDelay
      baseURL0 ua tmo retry429 hdrs maxR extra in
  dom (headers client)
  = dom (default_to ∅ hdrs) ∪ {[ "User-Agent" ]} ∪ dom (defaultHeaders options)
  /\ is_Some (headers client !! "User-Agent").
Proof.
  intros client. unfold client, new_Client, merge_headers. simpl.
  split.
  - rewrite dom_union_L, dom_insert_L. apply (assoc_L (∪)).
  - apply elem_of_dom. rewrite dom_union_L, dom_insert_L.
    apply elem_of_union_r, elem_of_union_l. now apply elem_of_singleton.
Qed.

(** X11: without custom headers, or with an empty object of them, the
    headers of the client are the default headers with [User-Agent] set
    to the user agent of the client, also over a [User-Agent] among the
    default headers. *)
Theorem headers_without_custom baseURL0 ua tmo retry429 hdrs maxR extra :
  let client :=
    new_Client options isNetworkOrIdempotentRequestError exponentialDelay
      baseURL0 ua tmo retry429 hdrs maxR extra in
  hdrs = None \/ hdrs = Some ∅ ->
  headers client
  = <["User-Agent" := HString (userAgent client)]> (defaultHeaders options)
  /\ headers client !! "User-Agent" = Some (HString (userAgent client)).
Proof.
  intros client Hempty.
  assert (headers client
          = <["User-Agent" := HString (userAgent client)]>
              (defaultHeaders options)) as Heq.
  { unfold client, new_Client, merge_headers. simpl.
    destruct Hempty as [-> | ->]; simpl; apply (left_id_L ∅ (∪)). }
  split; [exact Heq|]. rewrite Heq. apply lookup_insert_eq.
Qed.

(** X12: whether or not retry-on-429 is set, the retry configuration
    logs, on every retry, a line with the status and the status text of
    the failed response ([undefined] for both when there is no response)
    and with the number of the retry. *)
Theorem retry_is_logged baseURL0 ua tmo retry429 hdrs maxR extra :
  let client :=
    new_Client (ProxyConfig := ProxyConfig)
      options isNetworkOrIdempotentRequestError exponentialDelay
      baseURL0 ua tmo retry429 hdrs maxR extra in
  exists cfg,
    retry_installed (axiosInstance client) = Some cfg
    /\ forall number error,
        includes (onRetry cfg number error)
          ("Retry number " +:+ pretty number +:+ ".")
        /\ includes (onRetry cfg number error)
             match response error with
             | Some r => pretty (status r) +:+ ": " +:+ statusText r
             | None => "undefined: undefined"
             end.
Proof.
  intros client. eexists. split; [reflexivity|]. simpl.
  intros number error. unfold retry_log, response_status, response_statusText.
  split.
  - exists ("Request failed with status code "
            +:+ interpolate pretty
                  match response error with
                  | Some r => Some (status r)
                  | None => None
                  end
            +:+ ": "
            +:+ interpolate id
                  match response error with
                  | Some r => Some (statusText r)
                  | None => None
                  end
            +:+ ". "), EmptyString.
    rewrite !append_assoc. reflexivity.
  - exists "Request failed with status code ",
           (". Retry number " +:+ pretty number +:+ ".").
    destruct (response error) as [r|]; simpl;
      rewrite ?append_assoc; reflexivity.
Qed.

End ConstructorMore.

(** ** Constructor and [request] together *)

Section ClientLifecycle.

Context {GetParams PostParams Payload ClientRequest ProxyConfig : Type}.
Context {stringify_get : JSONStringify GetParams}.
Context {stringify_post : JSONStringify PostParams}.
Context {stringify_request : JSONStringifyOrThrow ClientRequest}.
Context {stringify_error : JSONStringify (AxiosError Payload ClientRequest)}.
Variable URL_parse : string -> option URL.
Variable URL_toString : URL -> string.
Variable options : Options.
Variable isNetworkOrIdempotentRequestError :
  AxiosError Payload ClientRequest -> bool.
Variable exponentialDelay : Z -> AxiosError Payload ClientRequest -> Z.

(** X13: every call that a request makes on a client built by the
    constructor goes through the instance the constructor created: the
    one with the client's transport options and with the retry
    configuration of the constructor's arguments installed; and the
    target the request parses is the constructor's base URL followed by
    the endpoint, with nothing put between them. *)
Theorem constructed_client_calls_its_transport
    (transport :
       AxiosCall GetParams PostParams Payload ClientRequest ProxyConfig ->
       AxiosError Payload ClientRequest + AxiosResponse Payload)
    (args : requestArgs GetParams PostParams)
    baseURL0 ua tmo retry429 hdrs maxR extra :
  let client :=
    new_Client options isNetworkOrIdempotentRequestError exponentialDelay
      baseURL0 ua tmo retry429 hdrs maxR extra in
  Forall
    (fun call =>
       defaults (call_instance call) = axiosOptions client
       /\ retry_installed (call_instance call)
          = Some (retryOpts isNetworkOrIdempotentRequestError exponentialDelay
                    (default_to (defaultMaxRetries options) maxR)
                    (default_to false retry429)))
    (calls_of URL_parse URL_toString transport client args)
  /\ (URL_parse (baseURL0 +:+ endpoint args) = None ->
      outcome_of URL_parse URL_toString transport client args
      = inl (URLTypeError (baseURL0 +:+ endpoint args))).
Proof.
  intros client. split.
  - eapply Forall_impl;
      [apply (calls_use_client_instance URL_parse URL_toString)|].
    intros call ->. split; reflexivity.
  - intros Hparse. unfold outcome_of.
    now rewrite settle_unparsed.
Qed.

End ClientLifecycle.

(** ** The further properties on the sample platform *)

Lemma success_resolves_with_data_sample :
  outcome_of Sample.parse Sample.serialize Sample.up
    Sample.client Sample.bare_get
  = inr (ResponseData "routes")
  /\ outcome_of Sample.parse Sample.serialize Sample.up
       Sample.client Sample.valhalla_live
     = inr (ResponseData "routes").
Proof.
  split.
  - exact (success_resolves_with_data Sample.parse Sample.serialize Sample.up
             Sample.client Sample.bare_get Sample.driving_url
             (mkResponse 200 "OK" "routes") eq_refl eq_refl eq_refl).
  - exact (success_resolves_with_data Sample.parse Sample.serialize Sample.up
             Sample.client Sample.valhalla_live Sample.valhalla_url
             (mkResponse 200 "OK" "routes") eq_refl eq_refl eq_refl).
Defined.

Lemma getParams_ignored_on_post_sample :
  settle Sample.parse Sample.serialize Sample.up Sample.client
    (mkArgs "/valhalla/v1/route" None (Some Sample.route) None None)
  = settle Sample.parse Sample.serialize Sample.up Sample.client
      SampleMore.both_params.
Proof.
  exact (getParams_ignored_on_post Sample.parse Sample.serialize Sample.up
           Sample.client SampleMore.both_params Sample.route None eq_refl).
Defined.

Lemma dry_run_depends_on_baseURL_only_sample :
  outcome_of Sample.parse Sample.serialize Sample.up
    Sample.client Sample.valhalla_dry
  = outcome_of Sample.parse Sample.serialize (Sample.down Sample.too_many)
      SampleMore.overridden Sample.valhalla_dry.
Proof.
  exact (dry_run_depends_on_baseURL_only Sample.parse Sample.serialize
           Sample.up (Sample.down Sample.too_many)
           Sample.client SampleMore.overridden Sample.valhalla_dry
           eq_refl eq_refl).
Defined.

Lemma client_error_only_from_get_setup_sample :
  postParams Sample.bare_get = None
  /\ strictly_true (dryRun Sample.bare_get) = false
  /\ exists u error,
      Sample.parse (baseURL Sample.client +:+ endpoint Sample.bare_get)
      = Some u
      /\ Sample.down Sample.setup_failed
           (axios_get (axiosInstance Sample.client) (Sample.serialize u)
              (getParams Sample.bare_get)) = inl error
      /\ response error = None
      /\ error_request error = None.
Proof.
  exact (client_error_only_from_get_setup Sample.parse Sample.serialize
           (Sample.down Sample.setup_failed) Sample.client Sample.bare_get
           ("Request failed with error TypeError."
            +:+ nl +:+ spaces 29 +:+ "Message: invalid header value ")
           eq_refl).
Defined.

Lemma info_string_only_on_dry_run_sample :
  strictly_true (dryRun Sample.valhalla_dry) = true
  /\ calls_of Sample.parse Sample.serialize Sample.up
       Sample.client Sample.valhalla_dry = [].
Proof.
  exact (info_string_only_on_dry_run Sample.parse Sample.serialize Sample.up
           Sample.client Sample.valhalla_dry
           (requestInfo
              "https://api.mapbox.com/valhalla/v1/route?access_token=tok"
              "POST" (JSON_stringify Sample.route))
           eq_refl).
Defined.

Lemma headers_without_custom_sample :
  headers Sample.client
  = <["User-Agent" := HString (userAgent Sample.client)]>
      (defaultHeaders Sample.opts)
  /\ headers Sample.client !! "User-Agent"
     = Some (HString (userAgent Sample.client)).
Proof.
  exact (headers_without_custom (ProxyConfig := unit)
           Sample.opts Sample.network_error Sample.backoff
           "https://api.mapbox.com" None None None None None None
           (or_introl eq_refl)).
Defined.

(** With transport options of their own, the headers the transport is
    created with are those options' headers alone, while the client's
    [headers] field still holds the merged ones. *)
Example overridden_headers_sample :
  cfg_headers (defaults (axiosInstance SampleMore.overridden))
  = Some {[ "X-Api-Key" := HString "k" ]}
  /\ cfg_timeout (defaults (axiosInstance SampleMore.overridden)) = Some 100
  /\ timeout SampleMore.overridden = 5000
  /\ headers SampleMore.overridden !! "Accept"
     = Some (HString "application/json")
  /\ proxy SampleMore.proxied = Some ProxyFalse
  /\ cfg_headers (defaults (axiosInstance SampleMore.proxied))
     = Some (headers SampleMore.proxied).
Proof. vm_compute. repeat split. Qed.

(** Transport options that write [headers] and [timeout] as [undefined]
    leave the transport without either, while the client's own fields
    keep the merged headers and the timeout. *)
Example undefined_keys_sample :
  cfg_headers (defaults (axiosInstance SampleMore.wiped)) = None
  /\ cfg_timeout (defaults (axiosInstance SampleMore.wiped)) = None
  /\ headers SampleMore.wiped !! "Accept" = Some (HString "application/json")
  /\ timeout SampleMore.wiped = 5000.
Proof. vm_compute. repeat split. Qed.
